(** * IST8310 magnetometer driver (src/main/drivers/compass_ist8310.c)

    A shallow embedding of the driver's three entry points
    ([ist8310Detect], [ist8310Init], [ist8310Read]) and of its internal
    data-ready interrupt configuration.  Calls into the platform (I2C bus,
    delay, GPIO, EXTI controller) and accesses to memory (the driver's
    file-scope statics, the caller's sample array, the local array of
    [ist8310Init]) are nodes of a finite program tree.  A run against a
    platform mock threads the memory and yields the log of the platform
    calls that were made, each with the memory as it stood at the call and
    the answer the mock gave. *)

From Stdlib Require Import ZArith List Bool Lia.
From Stdlib Require Import Strings.Byte.
Import ListNotations.
Local Open Scope Z_scope.

(** ** Machine integers *)

Module Int.

(** Integer promotion of a [uint8_t]. *)
Definition u8 (b : byte) : Z := Z.of_N (Byte.to_N b).

(** Conversion to [int16_t]: the value modulo 2^16, taken in
    [-32768, 32767] (two's complement, as on the ARM targets). *)
Definition to_int16 (z : Z) : Z :=
  let m := z mod 65536 in
  if m <? 32768 then m else m - 65536.

Definition int16_min : Z := -32768.
Definition int16_max : Z := 32767.
Definition int_min : Z := -2147483648.
Definition int_max : Z := 2147483647.

Definition in_int16 (z : Z) : Prop := int16_min <= z <= int16_max.
Definition in_int (z : Z) : Prop := int_min <= z <= int_max.

(** What a saturating conversion would give instead. *)
Definition saturate16 (z : Z) : Z :=
  if z <? int16_min then int16_min
  else if int16_max <? z then int16_max else z.

End Int.

(** ** Register map and parameters (the [#define]s of the source) *)

Definition IST8310_ADDRESS : Z := 0x0C.
Definition IST8310_REG_DATA : Z := 0x03.
Definition IST8310_REG_WHOAMI : Z := 0x00.
Definition IST8310_REG_CNTRL1 : Z := 0x0A.
Definition IST8310_REG_CNTRL2 : Z := 0x0B.
Definition IST8310_REG_AVERAGE : Z := 0x41.
Definition IST8310_ODR_SINGLE : Z := 0x01.
Definition IST8310_ODR_10_HZ : Z := 0x03.
Definition IST8310_ODR_20_HZ : Z := 0x05.
Definition IST8310_ODR_50_HZ : Z := 0x07.
Definition IST8310_ODR_100_HZ : Z := 0x06.
Definition IST8310_CHIP_ID : Z := 0x10.
Definition IST8310_AVG_16 : Z := 0x24.
Definition IST8310_CNTRL2_RESET : Z := 0x01.
Definition IST8310_CNTRL2_DRPOL : Z := 0x04.
Definition IST8310_CNTRL2_DRENA : Z := 0x08.

(** ** Platform types *)

(** [ioTag_t]: an 8-bit pin tag, 0 meaning "no pin". *)
Definition ioTag_t : Type := Z.

(** [IO_t]: an opaque handle of the GPIO layer. *)
Definition IO_t : Type := Z.

Inductive EXTITrigger_TypeDef : Type :=
| EXTI_Trigger_Rising
| EXTI_Trigger_Falling
| EXTI_Trigger_Rising_Falling.

(** Addresses of the two file-scope objects handed to the EXTI layer: the
    callback record and the handler (whose body is empty unless
    [DEBUG_MAG_DATA_READY_INTERRUPT] is defined). *)
Inductive symbol : Type :=
| ist8310_extiCallbackRec
| ist8310_extiHandler.

(** Modelled from the spec: [ist8310Config_t] is declared in
    compass_ist8310.h, a header outside the driver file; the configuration
    names the GPIO line wired to the data-ready output, if any.  The driver
    reads the single field [intTag]. *)
Record ist8310Config_t : Type := mkConfig { intTag : ioTag_t }.

(** What the target's headers fix at build time: two constants and the two
    feature macros tested by [#ifdef]. *)
Record target : Type := mkTarget {
  MAG_I2C_INSTANCE : Z;
  NVIC_PRIO_MAG_INT_EXTI : Z;
  USE_MAG_DATA_READY_SIGNAL : bool;
  ENSURE_MAG_DATA_READY_IS_HIGH : bool
}.

(** A caller-supplied buffer of [n] bytes, as it stands after a bus read. *)
Fixpoint buffer (n : nat) : Type :=
  match n with
  | O => unit
  | S n' => (byte * buffer n')%type
  end.

Fixpoint byte_at {n : nat} : buffer n -> nat -> byte :=
  match n return buffer n -> nat -> byte with
  | O => fun _ _ => x00
  | S n' => fun b i =>
      match i with
      | O => fst b
      | S i' => byte_at (snd b) i'
      end
  end.

Fixpoint buffer_of_list (n : nat) (l : list byte) : buffer n :=
  match n return buffer n with
  | O => tt
  | S n' => (hd x00 l, buffer_of_list n' (tl l))
  end.

(** ** Memory *)

(** Indices of [common/axis.h]. *)
Module Axis.
Inductive t : Type := X | Y | Z.
End Axis.

(** An object of type [int16_t[3]]. *)
Record sample : Type := mkSample { sX : Z; sY : Z; sZ : Z }.

Definition store (a : Axis.t) (v : Z) (d : sample) : sample :=
  match a with
  | Axis.X => mkSample v (sY d) (sZ d)
  | Axis.Y => mkSample (sX d) v (sZ d)
  | Axis.Z => mkSample (sX d) (sY d) v
  end.

(** The two arrays an [int16_t *] of this driver can designate: the one
    the caller of [ist8310Read] passes, and the local [magADC] of
    [ist8310Init]. *)
Inductive int16_ptr : Type :=
| ptr_caller
| ptr_magADC.

(** The file-scope statics [ist8310Config] (a pointer, [None] when null)
    and [intIO], and the two arrays. *)
Record memory : Type := mkMemory {
  ist8310Config : option ist8310Config_t;
  intIO : IO_t;
  caller_magData : sample;
  init_magADC : sample
}.

Definition array_at (p : int16_ptr) (mem : memory) : sample :=
  match p with
  | ptr_caller => caller_magData mem
  | ptr_magADC => init_magADC mem
  end.

Definition with_array (p : int16_ptr) (d : sample) (mem : memory) : memory :=
  match p with
  | ptr_caller =>
      mkMemory (ist8310Config mem) (intIO mem) d (init_magADC mem)
  | ptr_magADC =>
      mkMemory (ist8310Config mem) (intIO mem) (caller_magData mem) d
  end.

Definition with_ist8310Config (c : option ist8310Config_t) (mem : memory)
  : memory :=
  mkMemory c (intIO mem) (caller_magData mem) (init_magADC mem).

Definition with_intIO (io : IO_t) (mem : memory) : memory :=
  mkMemory (ist8310Config mem) io (caller_magData mem) (init_magADC mem).

(** [b] is [a] but for the contents of the local array of [ist8310Init]. *)
Definition same_but_magADC (a b : memory) : Prop :=
  ist8310Config b = ist8310Config a /\
  intIO b = intIO a /\
  caller_magData b = caller_magData a.

(** ** Calls into the platform *)

(** Modelled from the spec: the platform functions are declared in headers
    outside the driver file (bus_i2c.h, system.h, io.h, exti.h).  Each call
    is indexed by what the driver gets back from it: for [i2cRead] the
    acknowledge flag and the buffer as the call left it, for [i2cWrite] the
    acknowledge flag, for [IOGetByTag] the handle, for [IORead] the line
    level. *)
Inductive event : Type -> Type :=
| I2cRead (device addr reg : Z) (len : nat) : event (bool * buffer len)
| I2cWrite (device addr reg data : Z) : event bool
| Delay (ms : Z) : event unit
| IOGetByTag (tag : ioTag_t) : event IO_t
| IORead (io : IO_t) : event bool
| EXTIHandlerInit (cb fn : symbol) : event unit
| EXTIConfig (io : IO_t) (cb : symbol) (prio : Z)
    (trigger : EXTITrigger_TypeDef) : event unit
| EXTIEnable (io : IO_t) (enable : bool) : event unit.

(** A driver function: a finite tree of platform calls and of reads and
    writes of memory.  [Fault] stands for the dereference of a null
    pointer. *)
Inductive prog (A : Type) : Type :=
| Ret (a : A)
| Fault
| Vis {X : Type} (e : event X) (k : X -> prog A)
| Get (k : memory -> prog A)
| Put (mem : memory) (k : prog A).

Arguments Ret {A} a.
Arguments Fault {A}.
Arguments Vis {A X} e k.
Arguments Get {A} k.
Arguments Put {A} mem k.

Fixpoint bind {A B : Type} (p : prog A) (f : A -> prog B) : prog B :=
  match p with
  | Ret a => f a
  | Fault => Fault
  | Vis e k => Vis e (fun x => bind (k x) f)
  | Get k => Get (fun mem => bind (k mem) f)
  | Put mem k => Put mem (bind k f)
  end.

Definition platform {X : Type} (e : event X) : prog X := Vis e Ret.

Definition get_ist8310Config : prog (option ist8310Config_t) :=
  Get (fun mem => Ret (ist8310Config mem)).

Definition set_ist8310Config (c : option ist8310Config_t) : prog unit :=
  Get (fun mem => Put (with_ist8310Config c mem) (Ret tt)).

Definition get_intIO : prog IO_t := Get (fun mem => Ret (intIO mem)).

Definition set_intIO (io : IO_t) : prog unit :=
  Get (fun mem => Put (with_intIO io mem) (Ret tt)).

(** [p[a] = v] *)
Definition store_int16 (p : int16_ptr) (a : Axis.t) (v : Z) : prog unit :=
  Get (fun mem => Put (with_array p (store a v (array_at p mem)) mem)
                    (Ret tt)).

Declare Scope prog_scope.
Delimit Scope prog_scope with prog.
Notation "x <- p ;; q" := (bind p (fun x => q))
  (at level 61, p at next level, right associativity) : prog_scope.
Notation "p ;; q" := (bind p (fun _ => q))
  (at level 61, right associativity) : prog_scope.
Local Open Scope prog_scope.

(** [ist8310Config->intTag]: a fault when the pointer is null. *)
Definition ist8310Config_intTag : prog ioTag_t :=
  c <- get_ist8310Config ;;
  match c with
  | Some c => Ret (intTag c)
  | None => Fault
  end.

(** Modelled from the spec: [mag_t] is declared in compass.h, a header
    outside the driver file; the capability record has two function slots,
    [init] and [read], a null slot being [None]. *)
Record mag_t : Type := mkMag {
  init : option (prog unit);
  read : option (int16_ptr -> prog bool)
}.

(** ** Running a program against a platform mock *)

Record mock (S : Type) : Type := mkMock {
  respond : forall X : Type, event X -> S -> X * S
}.
Arguments respond {S} m {X} e s.

(** One line of the log: the memory when the call was made, the call and
    the answer it got. *)
Inductive entry : Type :=
| Entry (mem : memory) {X : Type} (e : event X) (r : X).

(** A call without its context and answer. *)
Inductive request : Type :=
| Req {X : Type} (e : event X).

Record outcome (S A : Type) : Type := mkOutcome {
  trace : list entry;
  final : S;
  result : option (A * memory)
}.
Arguments mkOutcome {S A} trace final result.
Arguments trace {S A} o.
Arguments final {S A} o.
Arguments result {S A} o.

Fixpoint run {S A : Type} (m : mock S) (p : prog A) (mem : memory) (s : S)
  : outcome S A :=
  match p with
  | Ret a => mkOutcome [] s (Some (a, mem))
  | Fault => mkOutcome [] s None
  | Vis e k =>
      let (r, s') := respond m e s in
      let o := run m (k r) mem s' in
      mkOutcome (Entry mem e r :: trace o) (final o) (result o)
  | Get k => run m (k mem) mem s
  | Put mem' k => run m k mem' s
  end.

Definition request_of (c : entry) : request :=
  match c with Entry _ e _ => Req e end.

Definition requests (t : list entry) : list request := map request_of t.

Definition memory_of (c : entry) : memory :=
  match c with Entry mem _ _ => mem end.

(** Classification of the calls. *)
Definition is_bus_op (q : request) : bool :=
  match q with
  | Req (I2cRead _ _ _ _) => true
  | Req (I2cWrite _ _ _ _) => true
  | _ => false
  end.

Definition is_bus_or_delay (q : request) : bool :=
  match q with
  | Req (I2cRead _ _ _ _) => true
  | Req (I2cWrite _ _ _ _) => true
  | Req (Delay _) => true
  | _ => false
  end.

Definition is_exti (q : request) : bool :=
  match q with
  | Req (EXTIHandlerInit _ _) => true
  | Req (EXTIConfig _ _ _ _) => true
  | Req (EXTIEnable _ _) => true
  | _ => false
  end.

Definition is_io_or_exti (q : request) : bool := negb (is_bus_or_delay q).

(** The bus read was acknowledged. *)
Definition is_acked_read (c : entry) : bool :=
  match c with
  | Entry _ e r =>
      match e in event X return X -> bool with
      | I2cRead _ _ _ _ => fun r => fst r
      | _ => fun _ => false
      end r
  end.

(** The interrupt line was sampled and read low. *)
Definition is_low_level (c : entry) : bool :=
  match c with
  | Entry _ e r =>
      match e in event X return X -> bool with
      | IORead _ => fun r => negb r
      | _ => fun _ => false
      end r
  end.

(** ** The driver *)

(** [uint8_t LSB2FSV = 3; // 3mG - 14 bit] *)
Definition LSB2FSV : Z := 3.

(** [(int16_t)(hi << 8 | lo)] *)
Definition raw16 (hi lo : byte) : Z :=
  Int.to_int16 (Z.lor (Z.shiftl (Int.u8 hi) 8) (Int.u8 lo)).

Section Driver.

Variable tgt : target.

Definition ist8310Read (magData : int16_ptr) : prog bool :=
  r <- platform (I2cRead (MAG_I2C_INSTANCE tgt) IST8310_ADDRESS
                   IST8310_REG_DATA 6) ;;
  let (ack, buf) := r in
  if negb ack then Ret false
  else
    store_int16 magData Axis.X
      (Int.to_int16 (- raw16 (byte_at buf 1) (byte_at buf 0) * LSB2FSV)) ;;
    store_int16 magData Axis.Y
      (Int.to_int16 (raw16 (byte_at buf 3) (byte_at buf 2) * LSB2FSV)) ;;
    store_int16 magData Axis.Z
      (Int.to_int16 (raw16 (byte_at buf 5) (byte_at buf 4) * LSB2FSV)) ;;
    platform (I2cWrite (MAG_I2C_INSTANCE tgt) IST8310_ADDRESS
                IST8310_REG_CNTRL1 IST8310_ODR_SINGLE) ;;
    Ret true.

Definition ist8310ConfigureDataReadyInterruptHandling : prog unit :=
  if USE_MAG_DATA_READY_SIGNAL tgt then
    tag <- ist8310Config_intTag ;;
    if tag =? 0 then Ret tt
    else
      tag <- ist8310Config_intTag ;;
      io <- platform (IOGetByTag tag) ;;
      set_intIO io ;;
      (* the three calls after the ENSURE_MAG_DATA_READY_IS_HIGH block *)
      let configure : prog unit :=
        platform (EXTIHandlerInit ist8310_extiCallbackRec
                    ist8310_extiHandler) ;;
        io <- get_intIO ;;
        platform (EXTIConfig io ist8310_extiCallbackRec
                    (NVIC_PRIO_MAG_INT_EXTI tgt) EXTI_Trigger_Rising) ;;
        io <- get_intIO ;;
        platform (EXTIEnable io true)
      in
      if ENSURE_MAG_DATA_READY_IS_HIGH tgt then
        io <- get_intIO ;;
        level <- platform (IORead io) ;;
        let status : Z := if (level : bool) then 1 else 0 in
        if status =? 0 then Ret tt else configure
      else configure
  else Ret tt.

Definition ist8310Init : prog unit :=
  let magADC := ptr_magADC in
  platform (I2cWrite (MAG_I2C_INSTANCE tgt) IST8310_ADDRESS
              IST8310_REG_CNTRL1 IST8310_ODR_SINGLE) ;;
  platform (Delay 5) ;;
  platform (I2cWrite (MAG_I2C_INSTANCE tgt) IST8310_ADDRESS
              IST8310_REG_AVERAGE IST8310_AVG_16) ;;
  platform (Delay 5) ;;
  ist8310Read magADC ;;
  platform (Delay 5) ;;
  platform (I2cWrite (MAG_I2C_INSTANCE tgt) IST8310_ADDRESS
              IST8310_REG_CNTRL1 IST8310_ODR_SINGLE) ;;
  ist8310ConfigureDataReadyInterruptHandling.

Definition ist8310Detect (mag : mag_t)
    (ist8310ConfigToUse : option ist8310Config_t) : prog (bool * mag_t) :=
  set_ist8310Config ist8310ConfigToUse ;;
  r <- platform (I2cRead (MAG_I2C_INSTANCE tgt) IST8310_ADDRESS
                   IST8310_REG_WHOAMI 1) ;;
  let (ack, buf) := r in
  let sig := byte_at buf 0 in
  if negb ack || negb (Int.u8 sig =? IST8310_CHIP_ID)
  then Ret (false, mag)
  else
    let mag := mkMag (Some ist8310Init) (read mag) in
    let mag := mkMag (init mag) (Some ist8310Read) in
    Ret (true, mag).

End Driver.

(** ** A scripted platform *)

(** The answers of a simulated chip and board; the state counts the calls
    served. *)
Record script : Type := mkScript {
  whoami_ack : bool;
  whoami : byte;
  data_ack : bool;
  data : list byte;
  write_ack : bool;
  line_high : bool
}.

Definition sim_respond (c : script) (X : Type) (e : event X) (n : nat)
  : X * nat :=
  match e in event X return X * nat with
  | I2cRead _ _ reg len =>
      if reg =? IST8310_REG_WHOAMI
      then ((whoami_ack c, buffer_of_list len [whoami c]), S n)
      else ((data_ack c, buffer_of_list len (data c)), S n)
  | I2cWrite _ _ _ _ => (write_ack c, S n)
  | Delay _ => (tt, S n)
  | IOGetByTag tag => (0x40020000 + tag, S n)
  | IORead _ => (line_high c, S n)
  | EXTIHandlerInit _ _ => (tt, S n)
  | EXTIConfig _ _ _ _ => (tt, S n)
  | EXTIEnable _ _ => (tt, S n)
  end.

Definition sim (c : script) : mock nat := mkMock nat (sim_respond c).

Definition board : target := mkTarget 1 15 true true.
Definition board_polled : target := mkTarget 1 15 false false.
Definition board_unchecked : target := mkTarget 1 15 true false.

Definition healthy : script :=
  mkScript true x10 true [x10; x00; x20; x00; x30; x00] true true.

(** Memory before any detection: [ist8310Config = NULL], [intIO] zero. *)
Definition at_reset : memory :=
  mkMemory None 0 (mkSample 7 8 9) (mkSample 0 0 0).

(** Memory after a detection with, and without, a data-ready line. *)
Definition wired : memory := with_ist8310Config (Some (mkConfig 0x2C)) at_reset.
Definition unwired : memory := with_ist8310Config (Some (mkConfig 0)) at_reset.

(** ** The bus operations by name *)

Definition whoami_read (tgt : target) : event (bool * buffer 1) :=
  I2cRead (MAG_I2C_INSTANCE tgt) IST8310_ADDRESS IST8310_REG_WHOAMI 1.

Definition data_read (tgt : target) : event (bool * buffer 6) :=
  I2cRead (MAG_I2C_INSTANCE tgt) IST8310_ADDRESS IST8310_REG_DATA 6.

Definition mode_write (tgt : target) : event bool :=
  I2cWrite (MAG_I2C_INSTANCE tgt) IST8310_ADDRESS IST8310_REG_CNTRL1
    IST8310_ODR_SINGLE.

Definition averaging_write (tgt : target) : event bool :=
  I2cWrite (MAG_I2C_INSTANCE tgt) IST8310_ADDRESS IST8310_REG_AVERAGE
    IST8310_AVG_16.

Definition settle : event unit := Delay 5.

(** The bus operations and delays of [ist8310Init], in order; the fourth
    bus operation is the re-arm write [ist8310Read] makes after an
    acknowledged burst. *)
Definition init_requests (tgt : target) (read_acked : bool) : list request :=
  [Req (mode_write tgt); Req settle; Req (averaging_write tgt); Req settle;
   Req (data_read tgt)]
  ++ (if read_acked then [Req (mode_write tgt)] else [])
  ++ [Req settle; Req (mode_write tgt)].

(** The sequence the specification gives for [ist8310Init]. *)
Definition init_requests_claimed (tgt : target) : list request :=
  [Req (mode_write tgt); Req settle; Req (averaging_write tgt); Req settle;
   Req (data_read tgt); Req settle; Req (mode_write tgt)].

(** ** The decoding as the specification words it *)

(** A little-endian signed 16-bit word from its low and high byte. *)
Definition LE16 (lo hi : byte) : Z :=
  let u := Int.u8 lo + 256 * Int.u8 hi in
  if u <? 32768 then u else u - 65536.

(** The three products, before any narrowing. *)
Definition product_X (B : buffer 6) : Z :=
  - LE16 (byte_at B 0) (byte_at B 1) * 3.
Definition product_Y (B : buffer 6) : Z :=
  LE16 (byte_at B 2) (byte_at B 3) * 3.
Definition product_Z (B : buffer 6) : Z :=
  LE16 (byte_at B 4) (byte_at B 5) * 3.

(** The three products narrowed to [int16_t]. *)
Definition decoded (B : buffer 6) : sample :=
  mkSample (Int.to_int16 (product_X B)) (Int.to_int16 (product_Y B))
    (Int.to_int16 (product_Z B)).

(** [v] is [p] reduced modulo 2^16 into the signed 16-bit range. *)
Definition wraps_to (p v : Z) : Prop :=
  Int.in_int16 v /\ (v - p) mod 65536 = 0.

(** ** The driver's bus operations as a set *)

(** The four bus operations the source spells out. *)
Definition driver_bus_op (tgt : target) (q : request) : Prop :=
  q = Req (whoami_read tgt) \/ q = Req (data_read tgt) \/
  q = Req (mode_write tgt) \/ q = Req (averaging_write tgt).

(** The register a request writes, if it is a bus write. *)
Definition written_register (q : request) : option Z :=
  match q with
  | Req (I2cWrite _ _ reg _) => Some reg
  | _ => None
  end.

(** What the driver may put on the bus: one of its four operations, and
    no write to the second control register (soft reset, data-ready pin
    enable and polarity). *)
Definition allowed (tgt : target) (q : request) : Prop :=
  (is_bus_op q = true -> driver_bus_op tgt q) /\
  written_register q <> Some IST8310_REG_CNTRL2.


(** The multiplier that undoes the scaling modulo 2^16:
    3 * 43691 = 2 * 65536 + 1. *)
Definition LSB2FSV_inverse : Z := 43691.

(** ** The data-ready interrupt handler *)

Module Word32.

(** Conversion to [uint32_t]. *)
Definition to_uint32 (z : Z) : Z := z mod 4294967296.

(** Conversion to [int32_t]: the value modulo 2^32, taken in
    [-2^31, 2^31 - 1]. *)
Definition to_int32 (z : Z) : Z :=
  let m := z mod 4294967296 in
  if m <? 2147483648 then m else m - 4294967296.

End Word32.

Module Handler.

(** The function-scope statics of [ist8310_extiHandler], present when
    [DEBUG_MAG_DATA_READY_INTERRUPT] is defined: [lastCalledAt]
    ([uint32_t]) and [callDelta] ([int32_t]), both zero at start. *)
Record statics : Type := mkStatics {
  lastCalledAt : Z;
  callDelta : Z
}.

Definition at_start : statics := mkStatics 0 0.

(** One invocation.  [debug_build] tells whether
    [DEBUG_MAG_DATA_READY_INTERRUPT] is defined; [millis] is what the
    call of [millis()] answers (it is not called otherwise).  The result
    is the statics after the call and the value assigned to [debug[0]],
    if any, before its conversion to the element type of [debug]. *)
Definition ist8310_extiHandler (debug_build : bool) (millis : Z)
    (hs : statics) : statics * option Z :=
  if debug_build then
    let now := Word32.to_uint32 millis in
    let callDelta :=
      Word32.to_int32 (Word32.to_uint32 (now - lastCalledAt hs)) in
    let debug0 := callDelta in
    (mkStatics now callDelta, Some debug0)
  else (hs, None).

End Handler.

(** Case analysis on the answer the mock gives to the next platform call. *)
Ltac answer s0 r s1 :=
  match goal with
  | |- context [respond ?m ?e s0] => destruct (respond m e s0) as [r s1]
  end.

(** ** Facts about the machine integers *)

Lemma u8_range (b : byte) : 0 <= Int.u8 b < 256.
Proof.
  unfold Int.u8. pose proof (Byte.to_N_bounded b) as Hb. lia.
Qed.

Lemma u8_inj (a b : byte) : Int.u8 a = Int.u8 b -> a = b.
Proof.
  unfold Int.u8. intros H. apply N2Z.inj in H.
  pose proof (Byte.of_to_N a) as Ha. pose proof (Byte.of_to_N b) as Hb.
  rewrite H in Ha. rewrite Ha in Hb. now inversion Hb.
Qed.

Lemma land_shiftl8_low (hi lo : Z) :
  0 <= lo < 256 -> Z.land (Z.shiftl hi 8) lo = 0.
Proof.
  intros Hlo. apply Z.bits_inj'. intros n Hn.
  rewrite Z.land_spec, Z.bits_0.
  destruct (Z.ltb_spec n 8) as [Hlt | Hge].
  - rewrite Z.shiftl_spec_low by assumption. reflexivity.
  - assert (Z.testbit lo n = false) as ->; [ | apply andb_false_r ].
    destruct (Z.eq_dec lo 0) as [-> | Hnz]; [ apply Z.bits_0 | ].
    apply Z.bits_above_log2; [ lia | ].
    apply Z.lt_le_trans with 8; [ | assumption ].
    apply Z.log2_lt_pow2; [ lia | ]. change (2 ^ 8) with 256. lia.
Qed.

Lemma lor_shiftl8 (hi lo : Z) :
  0 <= lo < 256 -> Z.lor (Z.shiftl hi 8) lo = 256 * hi + lo.
Proof.
  intros Hlo. pose proof (land_shiftl8_low hi lo Hlo) as Hdisj.
  rewrite <- Z.lxor_lor by assumption.
  rewrite <- Z.add_nocarry_lxor by assumption.
  rewrite Z.shiftl_mul_pow2 by lia. change (2 ^ 8) with 256. lia.
Qed.

Lemma to_int16_range (z : Z) : Int.in_int16 (Int.to_int16 z).
Proof.
  unfold Int.in_int16, Int.to_int16, Int.int16_min, Int.int16_max.
  pose proof (Z.mod_pos_bound z 65536 ltac:(lia)).
  destruct (Z.ltb_spec (z mod 65536) 32768); lia.
Qed.

Lemma to_int16_congr (z : Z) : (Int.to_int16 z - z) mod 65536 = 0.
Proof.
  unfold Int.to_int16.
  destruct (Z.ltb_spec (z mod 65536) 32768);
    Z.to_euclidean_division_equations; lia.
Qed.

Lemma to_int16_wraps (z : Z) : wraps_to z (Int.to_int16 z).
Proof. split; [ apply to_int16_range | apply to_int16_congr ]. Qed.

Lemma to_int16_id (z : Z) : Int.in_int16 z -> Int.to_int16 z = z.
Proof.
  unfold Int.in_int16, Int.to_int16, Int.int16_min, Int.int16_max.
  intros Hz.
  destruct (Z.ltb_spec (z mod 65536) 32768);
    Z.to_euclidean_division_equations; lia.
Qed.

Lemma wraps_to_unique (p v w : Z) : wraps_to p v -> wraps_to p w -> v = w.
Proof.
  unfold wraps_to, Int.in_int16, Int.int16_min, Int.int16_max.
  intros [Hv Hvp] [Hw Hwp].
  Z.to_euclidean_division_equations. lia.
Qed.

(** The word the source assembles is the little-endian signed word. *)
Lemma raw16_LE16 (hi lo : byte) : raw16 hi lo = LE16 lo hi.
Proof.
  unfold raw16, LE16.
  pose proof (u8_range hi) as Hhi. pose proof (u8_range lo) as Hlo.
  rewrite lor_shiftl8 by assumption.
  unfold Int.to_int16. cbv zeta.
  rewrite Z.mod_small by lia.
  replace (256 * Int.u8 hi + Int.u8 lo) with (Int.u8 lo + 256 * Int.u8 hi)
    by lia.
  reflexivity.
Qed.

Lemma LE16_range (lo hi : byte) : Int.in_int16 (LE16 lo hi).
Proof. rewrite <- raw16_LE16. apply to_int16_range. Qed.

(** No intermediate result of the three assignments leaves the range of
    [int]: the only narrowing is the final store. *)
Lemma decode_fits_int (hi lo : byte) :
  let word := Z.lor (Z.shiftl (Int.u8 hi) 8) (Int.u8 lo) in
  Int.in_int word /\
  Int.in_int (- raw16 hi lo) /\
  Int.in_int (- raw16 hi lo * LSB2FSV) /\
  Int.in_int (raw16 hi lo * LSB2FSV).
Proof.
  cbv zeta. pose proof (to_int16_range (raw16 hi lo)) as Hraw.
  pose proof (to_int16_range (Z.lor (Z.shiftl (Int.u8 hi) 8) (Int.u8 lo)))
    as Hr.
  fold (raw16 hi lo) in Hr.
  pose proof (u8_range hi) as Hhi. pose proof (u8_range lo) as Hlo.
  rewrite lor_shiftl8 by assumption.
  unfold Int.in_int, Int.in_int16, Int.int_min, Int.int_max,
    Int.int16_min, Int.int16_max, LSB2FSV in *.
  lia.
Qed.

Lemma product_ranges (B : buffer 6) :
  -98301 <= product_X B <= 98304 /\
  -98304 <= product_Y B <= 98301 /\
  -98304 <= product_Z B <= 98301.
Proof.
  unfold product_X, product_Y, product_Z.
  pose proof (LE16_range (byte_at B 0) (byte_at B 1)) as Hx.
  pose proof (LE16_range (byte_at B 2) (byte_at B 3)) as Hy.
  pose proof (LE16_range (byte_at B 4) (byte_at B 5)) as Hz.
  unfold Int.in_int16, Int.int16_min, Int.int16_max in *. lia.
Qed.

(** Where wrapping and saturating part: on every product of a 16-bit word
    by 3 that leaves the range, but for the single product -98304. *)
Lemma wrap_is_not_saturate (r p : Z) :
  Int.in_int16 r -> p = r * 3 \/ p = - r * 3 ->
  ~ Int.in_int16 p -> p <> -98304 ->
  Int.to_int16 p <> Int.saturate16 p.
Proof.
  unfold Int.in_int16, Int.to_int16, Int.saturate16,
    Int.int16_min, Int.int16_max.
  intros Hr Hp Hout Hne.
  destruct (Z.ltb_spec (p mod 65536) 32768);
    destruct (Z.ltb_spec p (-32768));
    destruct (Z.ltb_spec 32767 p);
    Z.to_euclidean_division_equations; lia.
Qed.

(** ** Running a sequence *)

Lemma run_bind {S A B : Type} (m : mock S) (p : prog A) (f : A -> prog B)
    (mem : memory) (s : S) :
  run m (bind p f) mem s =
  match result (run m p mem s) with
  | None => mkOutcome (trace (run m p mem s)) (final (run m p mem s)) None
  | Some (a, mem') =>
      let o' := run m (f a) mem' (final (run m p mem s)) in
      mkOutcome (trace (run m p mem s) ++ trace o') (final o') (result o')
  end.
Proof.
  revert mem s.
  induction p as [a | | X e k IH | k IH | mem' k IH]; intros mem s.
  - cbn. destruct (run m (f a) mem s); reflexivity.
  - reflexivity.
  - cbn [bind run]. destruct (respond m e s) as [r s'].
    rewrite IH. cbn [trace final result].
    destruct (result (run m (k r) mem s')) as [[a mem'] | ]; reflexivity.
  - cbn [bind run]. apply IH.
  - cbn [bind run]. apply IH.
Qed.

(** ** Runs of [ist8310Read] *)

Section ReadRuns.

Variable tgt : target.
Context {S : Type}.
Variable m : mock S.

Lemma run_read_nack (p : int16_ptr) (mem : memory) (s s' : S)
    (buf : buffer 6) :
  respond m (data_read tgt) s = ((false, buf), s') ->
  run m (ist8310Read tgt p) mem s =
  mkOutcome [Entry mem (data_read tgt) (false, buf)] s' (Some (false, mem)).
Proof.
  intros Hr. unfold ist8310Read. cbn [bind platform run].
  change (I2cRead (MAG_I2C_INSTANCE tgt) IST8310_ADDRESS IST8310_REG_DATA 6)
    with (data_read tgt).
  rewrite Hr. reflexivity.
Qed.

(** The three stores of [ist8310Read] leave the array as [decoded] says
    and nothing else changed. *)
Lemma three_stores (p : int16_ptr) (mem : memory) (buf : buffer 6) :
  let vx :=
    Int.to_int16 (- raw16 (byte_at buf 1) (byte_at buf 0) * LSB2FSV) in
  let vy :=
    Int.to_int16 (raw16 (byte_at buf 3) (byte_at buf 2) * LSB2FSV) in
  let vz :=
    Int.to_int16 (raw16 (byte_at buf 5) (byte_at buf 4) * LSB2FSV) in
  let mem1 := with_array p (store Axis.X vx (array_at p mem)) mem in
  let mem2 := with_array p (store Axis.Y vy (array_at p mem1)) mem1 in
  with_array p (store Axis.Z vz (array_at p mem2)) mem2 =
  with_array p (decoded buf) mem.
Proof.
  cbv zeta. unfold decoded, product_X, product_Y, product_Z, LSB2FSV.
  rewrite !raw16_LE16. destruct p; reflexivity.
Qed.

Lemma run_read_ack (p : int16_ptr) (mem : memory) (s s' : S)
    (buf : buffer 6) :
  respond m (data_read tgt) s = ((true, buf), s') ->
  let mem' := with_array p (decoded buf) mem in
  run m (ist8310Read tgt p) mem s =
  mkOutcome
    [Entry mem (data_read tgt) (true, buf);
     Entry mem' (mode_write tgt) (fst (respond m (mode_write tgt) s'))]
    (snd (respond m (mode_write tgt) s'))
    (Some (true, mem')).
Proof.
  intros Hr mem'. unfold ist8310Read. cbn [bind platform run].
  change (I2cRead (MAG_I2C_INSTANCE tgt) IST8310_ADDRESS IST8310_REG_DATA 6)
    with (data_read tgt).
  rewrite Hr. cbn [negb bind platform run store_int16].
  change (I2cWrite (MAG_I2C_INSTANCE tgt) IST8310_ADDRESS IST8310_REG_CNTRL1
            IST8310_ODR_SINGLE) with (mode_write tgt).
  pose proof (three_stores p mem buf) as Hmem. cbv zeta in Hmem.
  rewrite Hmem. fold mem'.
  destruct (respond m (mode_write tgt) s') as [a s'']. reflexivity.
Qed.

End ReadRuns.

(** ** Claims about [ist8310Read] *)

(** C1, as stated, fails: the burst [FF 7F 00 00 00 00] carries the word
    32767 on the first axis; the exact product would be -98301, and the
    driver stores -32765. *)
Lemma read_exact_product_fails :
  let B := buffer_of_list 6 [xff; x7f; x00; x00; x00; x00] in
  let o := run (sim (mkScript true x10 true [xff; x7f; x00; x00; x00; x00]
                       true true))
             (ist8310Read board ptr_caller) unwired 0%nat in
  result o =
  Some (true, with_array ptr_caller (mkSample (-32765) 0 0) unwired) /\
  - LE16 (byte_at B 0) (byte_at B 1) * 3 = -98301.
Proof. split; reflexivity. Qed.

(** C1 (amended): on an acknowledged data burst whose three little-endian
    signed words lie in [-10922, 10922], the range in which three times the
    word fits an [int16_t], [ist8310Read] stores exactly
    X = -LE16(B[0..1])*3, Y = LE16(B[2..3])*3, Z = LE16(B[4..5])*3 into the
    array it was given, and returns true. *)
Theorem read_decodes_exactly
    (tgt : target) (S : Type) (m : mock S) (s s' : S) (mem : memory)
    (magData : int16_ptr) (B : buffer 6) :
  respond m (data_read tgt) s = ((true, B), s') ->
  -10922 <= LE16 (byte_at B 0) (byte_at B 1) <= 10922 ->
  -10922 <= LE16 (byte_at B 2) (byte_at B 3) <= 10922 ->
  -10922 <= LE16 (byte_at B 4) (byte_at B 5) <= 10922 ->
  result (run m (ist8310Read tgt magData) mem s) =
  Some (true,
        with_array magData
          (mkSample (- LE16 (byte_at B 0) (byte_at B 1) * 3)
                    (LE16 (byte_at B 2) (byte_at B 3) * 3)
                    (LE16 (byte_at B 4) (byte_at B 5) * 3)) mem).
Proof.
  intros Hr Hx Hy Hz.
  rewrite (run_read_ack tgt m magData mem s s' B Hr).
  cbn [result]. unfold decoded, product_X, product_Y, product_Z.
  rewrite !to_int16_id
    by (unfold Int.in_int16, Int.int16_min, Int.int16_max; lia).
  reflexivity.
Qed.

(** The scenario of the specification: the burst [10 00 20 00 30 00]
    decodes to X = -48, Y = 96, Z = 144. *)
Lemma read_decodes_exactly_scenario :
  result (run (sim healthy) (ist8310Read board ptr_caller) unwired 0%nat) =
  Some (true, with_array ptr_caller (mkSample (-48) 96 144) unwired).
Proof.
  apply (read_decodes_exactly board nat (sim healthy) 0%nat 1%nat unwired
           ptr_caller (buffer_of_list 6 [x10; x00; x20; x00; x30; x00]));
    [ reflexivity | vm_compute; split; discriminate .. ].
Defined.

(** C5: when the data burst is not acknowledged, [ist8310Read] returns
    false with memory, the caller's array included, as it was on entry,
    and the burst read is the only bus operation: no re-arm write
    follows. *)
Theorem read_nack_leaves_sample
    (tgt : target) (S : Type) (m : mock S) (s s' : S) (mem : memory)
    (magData : int16_ptr) (B : buffer 6) :
  respond m (data_read tgt) s = ((false, B), s') ->
  let o := run m (ist8310Read tgt magData) mem s in
  result o = Some (false, mem) /\
  requests (trace o) = [Req (data_read tgt)].
Proof.
  intros Hr o. subst o.
  rewrite (run_read_nack tgt m magData mem s s' B Hr).
  split; reflexivity.
Qed.

Lemma read_nack_leaves_sample_witness :
  let o := run (sim (mkScript true x10 false [] true true))
             (ist8310Read board ptr_caller) unwired 0%nat in
  result o = Some (false, unwired) /\
  requests (trace o) = [Req (data_read board)].
Proof.
  apply (read_nack_leaves_sample board nat
           (sim (mkScript true x10 false [] true true)) 0%nat 1%nat unwired
           ptr_caller (buffer_of_list 6 [])).
  reflexivity.
Defined.

(** C6: when the data burst is acknowledged, [ist8310Read] stores the
    decoded sample, then writes the single-measurement value to the
    operating-mode register exactly once (the array already holds the
    sample when that write is issued), and returns true; whatever the
    platform answers to that write, the return value and the stored sample
    are the same. *)
Theorem read_ack_rearms_once
    (tgt : target) (S : Type) (m : mock S) (s s' : S) (mem : memory)
    (magData : int16_ptr) (B : buffer 6) :
  respond m (data_read tgt) s = ((true, B), s') ->
  let o := run m (ist8310Read tgt magData) mem s in
  let mem' := with_array magData (decoded B) mem in
  exists rearm_ack : bool,
    trace o =
    [Entry mem (data_read tgt) (true, B);
     Entry mem' (mode_write tgt) rearm_ack] /\
    result o = Some (true, mem').
Proof.
  intros Hr o mem'. subst o.
  rewrite (run_read_ack tgt m magData mem s s' B Hr).
  cbn [result trace]. eexists. split; reflexivity.
Qed.

(** The re-arm write is refused here, and the read still succeeds. *)
Lemma read_ack_rearms_once_witness :
  let mem' := with_array ptr_caller (mkSample (-48) 96 144) unwired in
  exists rearm_ack : bool,
    trace (run (sim (mkScript true x10 true
                       [x10; x00; x20; x00; x30; x00] false true))
             (ist8310Read board ptr_caller) unwired 0%nat) =
    [Entry unwired (data_read board)
       (true, buffer_of_list 6 [x10; x00; x20; x00; x30; x00]);
     Entry mem' (mode_write board) rearm_ack] /\
    result (run (sim (mkScript true x10 true
                        [x10; x00; x20; x00; x30; x00] false true))
              (ist8310Read board ptr_caller) unwired 0%nat) =
    Some (true, mem').
Proof.
  apply (read_ack_rearms_once board nat
           (sim (mkScript true x10 true
                   [x10; x00; x20; x00; x30; x00] false true))
           0%nat 1%nat unwired ptr_caller
           (buffer_of_list 6 [x10; x00; x20; x00; x30; x00])).
  reflexivity.
Defined.

(** C10: on an acknowledged data burst each stored axis value is the
    product (-raw*3 for X, raw*3 for Y and Z, raw the little-endian signed
    word) reduced modulo 2^16 into the signed 16-bit range; when the
    product is outside that range the stored value differs from it, and
    from the saturated value too, except for the one product -98304 where
    wrapping and saturating both give -32768. *)
Theorem read_stores_wrapped_product
    (tgt : target) (S : Type) (m : mock S) (s s' : S) (mem : memory)
    (magData : int16_ptr) (B : buffer 6) :
  respond m (data_read tgt) s = ((true, B), s') ->
  let px := - LE16 (byte_at B 0) (byte_at B 1) * 3 in
  let py := LE16 (byte_at B 2) (byte_at B 3) * 3 in
  let pz := LE16 (byte_at B 4) (byte_at B 5) * 3 in
  exists d : sample,
    result (run m (ist8310Read tgt magData) mem s) =
    Some (true, with_array magData d mem) /\
    (wraps_to px (sX d) /\ wraps_to py (sY d) /\ wraps_to pz (sZ d)) /\
    (~ Int.in_int16 px -> sX d <> px /\ sX d <> Int.saturate16 px) /\
    (~ Int.in_int16 py ->
     sY d <> py /\ (py <> -98304 -> sY d <> Int.saturate16 py)) /\
    (~ Int.in_int16 pz ->
     sZ d <> pz /\ (pz <> -98304 -> sZ d <> Int.saturate16 pz)).
Proof.
  intros Hr px py pz.
  rewrite (run_read_ack tgt m magData mem s s' B Hr).
  cbn [result]. exists (decoded B). split; [ reflexivity | ].
  unfold decoded, product_X, product_Y, product_Z. fold px py pz.
  cbn [sX sY sZ].
  pose proof (LE16_range (byte_at B 0) (byte_at B 1)) as Hx.
  pose proof (LE16_range (byte_at B 2) (byte_at B 3)) as Hy.
  pose proof (LE16_range (byte_at B 4) (byte_at B 5)) as Hz.
  split;
    [ repeat split; first [ apply to_int16_range | apply to_int16_congr ] | ].
  assert (Hne : forall p, ~ Int.in_int16 p -> Int.to_int16 p <> p).
  { intros p Hout Heq. apply Hout. rewrite <- Heq. apply to_int16_range. }
  split; [ | split ]; intros Hout; (split; [ now apply Hne | ]).
  - apply (wrap_is_not_saturate _ px Hx); [ right; reflexivity | assumption | ].
    subst px. unfold Int.in_int16, Int.int16_min, Int.int16_max in Hx. lia.
  - intros Hp. apply (wrap_is_not_saturate _ py Hy); auto.
  - intros Hp. apply (wrap_is_not_saturate _ pz Hz); auto.
Qed.

(** The burst [FF 7F 00 80 FF 7F]: words 32767, -32768, 32767. *)
Lemma read_stores_wrapped_product_witness :
  exists d : sample,
    result (run (sim (mkScript true x10 true
                        [xff; x7f; x00; x80; xff; x7f] true true))
              (ist8310Read board ptr_caller) unwired 0%nat) =
    Some (true, with_array ptr_caller d unwired) /\
    (wraps_to (-98301) (sX d) /\ wraps_to (-98304) (sY d) /\
     wraps_to 98301 (sZ d)) /\
    (~ Int.in_int16 (-98301) ->
     sX d <> -98301 /\ sX d <> Int.saturate16 (-98301)) /\
    (~ Int.in_int16 (-98304) ->
     sY d <> -98304 /\
     (-98304 <> -98304 -> sY d <> Int.saturate16 (-98304))) /\
    (~ Int.in_int16 98301 ->
     sZ d <> 98301 /\ (98301 <> -98304 -> sZ d <> Int.saturate16 98301)).
Proof.
  apply (read_stores_wrapped_product board nat
           (sim (mkScript true x10 true
                   [xff; x7f; x00; x80; xff; x7f] true true))
           0%nat 1%nat unwired ptr_caller
           (buffer_of_list 6 [xff; x7f; x00; x80; xff; x7f])).
  reflexivity.
Defined.

(** What was stored for that burst: -32765, -32768 and 32765, where
    saturation would have given -32768, -32768 and 32767. *)
Example read_wraps_scenario :
  result (run (sim (mkScript true x10 true
                      [xff; x7f; x00; x80; xff; x7f] true true))
            (ist8310Read board ptr_caller) unwired 0%nat) =
  Some (true,
        with_array ptr_caller (mkSample (-32765) (-32768) 32765) unwired).
Proof. reflexivity. Qed.

(** ** Runs of [ist8310Init] *)

Section InitRuns.

Variable tgt : target.
Context {S : Type}.
Variable m : mock S.

(** The interrupt configuration touches neither the bus nor the clock. *)
Lemma run_configure_shape (mem : memory) (s : S) :
  let o := run m (ist8310ConfigureDataReadyInterruptHandling tgt) mem s in
  forallb is_io_or_exti (requests (trace o)) = true /\
  existsb is_acked_read (trace o) = false.
Proof.
  unfold ist8310ConfigureDataReadyInterruptHandling, ist8310Config_intTag,
    get_ist8310Config, set_intIO, get_intIO.
  destruct (USE_MAG_DATA_READY_SIGNAL tgt); [ | split; reflexivity ].
  cbn [bind platform run].
  destruct (ist8310Config mem) as [cfg | ] eqn:Hcfg; [ | split; reflexivity ].
  cbn [bind platform run].
  destruct (intTag cfg =? 0); [ split; reflexivity | ].
  cbn [bind platform run]. rewrite Hcfg. cbn [bind platform run].
  answer s io s1.
  destruct (ENSURE_MAG_DATA_READY_IS_HIGH tgt);
    cbn [bind platform run intIO with_intIO].
  - answer s1 ipattern:([]) s2;
      cbn [Z.eqb bind platform run intIO with_intIO].
    + answer s2 ipattern:([]) s3.
      answer s3 ipattern:([]) s4.
      answer s4 ipattern:([]) s5.
      split; reflexivity.
    + split; reflexivity.
  - answer s1 ipattern:([]) s3.
    answer s3 ipattern:([]) s4.
    answer s4 ipattern:([]) s5.
    split; reflexivity.
Qed.

(** Without a configured line nothing is called at all. *)
Lemma run_configure_no_line (mem : memory) (s : S) (cfg : ist8310Config_t) :
  ist8310Config mem = Some cfg -> intTag cfg = 0 ->
  run m (ist8310ConfigureDataReadyInterruptHandling tgt) mem s =
  mkOutcome [] s (Some (tt, mem)).
Proof.
  intros Hcfg Htag.
  unfold ist8310ConfigureDataReadyInterruptHandling, ist8310Config_intTag,
    get_ist8310Config.
  destruct (USE_MAG_DATA_READY_SIGNAL tgt); [ | reflexivity ].
  cbn [bind platform run]. rewrite Hcfg. cbn [bind platform run].
  rewrite Htag. reflexivity.
Qed.

(** With the idle-high check compiled in, a line that reads low ends the
    configuration after the level was sampled. *)
Lemma run_configure_low (mem : memory) (s : S) :
  USE_MAG_DATA_READY_SIGNAL tgt = true ->
  ENSURE_MAG_DATA_READY_IS_HIGH tgt = true ->
  let o := run m (ist8310ConfigureDataReadyInterruptHandling tgt) mem s in
  existsb is_low_level (trace o) = true ->
  exists (cfg : ist8310Config_t) (io : IO_t),
    ist8310Config mem = Some cfg /\
    requests (trace o) = [Req (IOGetByTag (intTag cfg)); Req (IORead io)] /\
    result o = Some (tt, with_intIO io mem).
Proof.
  intros Huse Hensure.
  unfold ist8310ConfigureDataReadyInterruptHandling, ist8310Config_intTag,
    get_ist8310Config, set_intIO, get_intIO.
  rewrite Huse, Hensure. cbn [bind platform run].
  destruct (ist8310Config mem) as [cfg | ] eqn:Hcfg; [ | discriminate ].
  cbn [bind platform run].
  destruct (intTag cfg =? 0); [ discriminate | ].
  cbn [bind platform run]. rewrite Hcfg. cbn [bind platform run].
  answer s io s1.
  cbn [bind platform run intIO with_intIO].
  answer s1 ipattern:([]) s2;
    cbn [Z.eqb bind platform run intIO with_intIO].
  - answer s2 ipattern:([]) s3.
    answer s3 ipattern:([]) s4.
    answer s4 ipattern:([]) s5.
    discriminate.
  - intros _. exists cfg, io. unfold with_intIO. rewrite ?Hcfg. repeat split.
Qed.

(** [ist8310Init] is its bus sequence followed by the interrupt
    configuration, which starts from the memory [ist8310Init] was entered
    with, but for the local array. *)
Lemma run_init_split (mem : memory) (s : S) :
  exists (pre : list entry) (s' : S) (mem1 : memory),
    let o := run m (ist8310Init tgt) mem s in
    let c := run m (ist8310ConfigureDataReadyInterruptHandling tgt) mem1 s' in
    trace o = pre ++ trace c /\
    result o = result c /\
    same_but_magADC mem mem1 /\
    requests pre = init_requests tgt (existsb is_acked_read pre) /\
    existsb is_low_level pre = false.
Proof.
  unfold ist8310Init. cbn [bind platform run].
  answer s a1 s1.
  answer s1 ipattern:([]) s2.
  answer s2 a3 s3.
  answer s3 ipattern:([]) s4.
  rewrite run_bind.
  destruct (respond m (data_read tgt) s4) as [[ack buf] s5] eqn:Hr.
  destruct ack.
  - rewrite (run_read_ack tgt m ptr_magADC mem s4 s5 buf Hr).
    cbv zeta. cbn [result trace final].
    set (mem1 := with_array ptr_magADC (decoded buf) mem).
    destruct (respond m (mode_write tgt) s5) as [a6 s6].
    cbn [fst snd bind platform run].
    answer s6 ipattern:([]) s7.
    answer s7 a8 s8.
    eexists (_ :: _ :: _ :: _ :: _ :: _ :: _ :: _ :: nil), s8, mem1.
    cbn [trace result app]. repeat split.
  - rewrite (run_read_nack tgt m ptr_magADC mem s4 s5 buf Hr).
    cbn [result trace final bind platform run].
    answer s5 ipattern:([]) s6.
    answer s6 a7 s7.
    eexists (_ :: _ :: _ :: _ :: _ :: _ :: _ :: nil), s7, mem.
    cbn [trace result app]. repeat split.
Qed.

End InitRuns.

Lemma no_bus_op_in_tail (tail : list request) :
  forallb is_io_or_exti tail = true -> filter is_bus_op tail = [].
Proof.
  induction tail as [ | q tail IH]; [ reflexivity | ].
  cbn [forallb filter]. intros H. apply andb_prop in H as [Hq Ht].
  destruct q as [X e]. destruct e; try discriminate; now apply IH.
Qed.

Lemma init_requests_bus_ops (tgt : target) (b : bool) :
  length (filter is_bus_op (init_requests tgt b)) = (if b then 5 else 4)%nat /\
  filter is_bus_or_delay (init_requests tgt b) = init_requests tgt b /\
  filter is_exti (init_requests tgt b) = [].
Proof. destruct b; repeat split. Qed.

(** ** Claims about [ist8310Init] *)

(** C2, as stated, fails: when the chip acknowledges the data burst, the
    discard read re-arms the chip itself, and [ist8310Init] makes five bus
    operations, not four. *)
Lemma init_makes_five_bus_operations :
  let t := requests (trace (run (sim healthy) (ist8310Init board) wired
                              0%nat)) in
  filter is_bus_op t =
  [Req (mode_write board); Req (averaging_write board);
   Req (data_read board); Req (mode_write board); Req (mode_write board)] /\
  length (filter is_bus_op t) = 5%nat /\
  filter is_bus_or_delay t <> init_requests_claimed board.
Proof.
  repeat split. intros H. apply (f_equal (@length request)) in H.
  vm_compute in H. discriminate.
Qed.

(** C2 (amended): whatever the platform answers, [ist8310Init] issues the
    mode write, the averaging write, one 6-byte data read, the re-arm write
    of the discard read if and only if that read was acknowledged, and its
    own re-arm write, in that order, with a settling delay after the first
    write, after the second write and after the discard read; these are
    four bus operations when the data read is refused and five when it is
    acknowledged, and everything called afterwards is a GPIO or EXTI
    call. *)
Theorem init_bus_sequence
    (tgt : target) (S : Type) (m : mock S) (mem : memory) (s : S) :
  let o := run m (ist8310Init tgt) mem s in
  let acked := existsb is_acked_read (trace o) in
  exists tail : list request,
    requests (trace o) = init_requests tgt acked ++ tail /\
    forallb is_io_or_exti tail = true /\
    length (filter is_bus_op (requests (trace o))) =
    (if acked then 5 else 4)%nat.
Proof.
  intros o acked. subst o acked.
  destruct (run_init_split tgt m mem s)
    as (pre & s' & mem1 & Ht & _ & _ & Hpre & _).
  cbv zeta in Ht.
  destruct (run_configure_shape tgt m mem1 s') as [Hio Hnoread].
  cbv zeta in Hio, Hnoread.
  rewrite Ht, existsb_app, Hnoread, orb_false_r.
  unfold requests in *. rewrite map_app, Hpre.
  eexists. split; [ reflexivity | ]. split; [ exact Hio | ].
  rewrite filter_app, (no_bus_op_in_tail _ Hio), app_nil_r.
  apply init_requests_bus_ops.
Qed.

(** C7: with a configuration whose interrupt tag is absent, the calls of
    [ist8310Init] are its bus operations and delays only: no EXTI call (and
    no GPIO call) is made, and [ist8310Init] returns with the statics and
    the caller's array untouched. *)
Theorem init_without_line_registers_nothing
    (tgt : target) (S : Type) (m : mock S) (mem : memory) (s : S)
    (cfg : ist8310Config_t) :
  ist8310Config mem = Some cfg -> intTag cfg = 0 ->
  let o := run m (ist8310Init tgt) mem s in
  filter is_exti (requests (trace o)) = [] /\
  requests (trace o) = init_requests tgt (existsb is_acked_read (trace o)) /\
  exists mem' : memory,
    result o = Some (tt, mem') /\ same_but_magADC mem mem'.
Proof.
  intros Hcfg Htag o. subst o.
  destruct (run_init_split tgt m mem s)
    as (pre & s' & mem1 & Ht & Hres & Hsame & Hpre & _).
  cbv zeta in Ht, Hres.
  assert (Hcfg1 : ist8310Config mem1 = Some cfg)
    by (destruct Hsame as (-> & _); exact Hcfg).
  rewrite (run_configure_no_line tgt m mem1 s' cfg Hcfg1 Htag) in Ht, Hres.
  cbn [trace result] in Ht, Hres. rewrite app_nil_r in Ht.
  rewrite Ht, Hres, Hpre.
  split; [ apply init_requests_bus_ops | ].
  split; [ reflexivity | ]. exists mem1. split; [ reflexivity | exact Hsame ].
Qed.

Lemma init_without_line_registers_nothing_witness :
  let o := run (sim healthy) (ist8310Init board) unwired 0%nat in
  filter is_exti (requests (trace o)) = [] /\
  requests (trace o) = init_requests board (existsb is_acked_read (trace o)) /\
  exists mem' : memory,
    result o = Some (tt, mem') /\ same_but_magADC unwired mem'.
Proof.
  apply (init_without_line_registers_nothing board nat (sim healthy) unwired
           0%nat (mkConfig 0)); reflexivity.
Defined.

(** C8: with the idle-high check compiled in, when the configured line is
    sampled low, [ist8310Init] makes no EXTI call: after its bus operations
    and delays, which are the same as in every other run, it resolves the
    line, samples it, and returns. *)
Theorem init_line_low_skips_registration
    (tgt : target) (S : Type) (m : mock S) (mem : memory) (s : S) :
  USE_MAG_DATA_READY_SIGNAL tgt = true ->
  ENSURE_MAG_DATA_READY_IS_HIGH tgt = true ->
  let o := run m (ist8310Init tgt) mem s in
  let acked := existsb is_acked_read (trace o) in
  existsb is_low_level (trace o) = true ->
  exists (cfg : ist8310Config_t) (io : IO_t) (mem' : memory),
    ist8310Config mem = Some cfg /\
    filter is_exti (requests (trace o)) = [] /\
    filter is_bus_or_delay (requests (trace o)) = init_requests tgt acked /\
    requests (trace o) =
    init_requests tgt acked ++
    [Req (IOGetByTag (intTag cfg)); Req (IORead io)] /\
    result o = Some (tt, mem') /\
    ist8310Config mem' = Some cfg /\
    caller_magData mem' = caller_magData mem.
Proof.
  intros Huse Hensure o acked. subst o acked.
  destruct (run_init_split tgt m mem s)
    as (pre & s' & mem1 & Ht & Hres & Hsame & Hpre & Hlow).
  cbv zeta in Ht, Hres.
  destruct (run_configure_shape tgt m mem1 s') as [_ Hnoread].
  cbv zeta in Hnoread.
  rewrite Ht, Hres, !existsb_app, Hnoread, Hlow, orb_false_r, orb_false_l.
  intros Hline.
  destruct (run_configure_low tgt m mem1 s' Huse Hensure Hline)
    as (cfg & io & Hcfg & Hreq & Hr).
  destruct Hsame as (Hc & _ & Hcaller).
  exists cfg, io, (with_intIO io mem1). unfold requests in *.
  rewrite map_app, Hpre, Hreq, !filter_app, Hr.
  destruct (init_requests_bus_ops tgt (existsb is_acked_read pre))
    as (_ & Hbus & Hexti).
  rewrite Hbus, Hexti. cbn [with_intIO ist8310Config caller_magData].
  repeat split; try congruence.
  cbn [filter is_bus_or_delay]. apply app_nil_r.
Qed.

Lemma init_line_low_skips_registration_witness :
  let o := run (sim (mkScript true x10 true [x10; x00; x20; x00; x30; x00]
                       true false))
             (ist8310Init board) wired 0%nat in
  exists (cfg : ist8310Config_t) (io : IO_t) (mem' : memory),
    ist8310Config wired = Some cfg /\
    filter is_exti (requests (trace o)) = [] /\
    filter is_bus_or_delay (requests (trace o)) = init_requests board true /\
    requests (trace o) =
    init_requests board true ++
    [Req (IOGetByTag (intTag cfg)); Req (IORead io)] /\
    result o = Some (tt, mem') /\
    ist8310Config mem' = Some cfg /\
    caller_magData mem' = caller_magData wired.
Proof.
  apply (init_line_low_skips_registration board nat
           (sim (mkScript true x10 true [x10; x00; x20; x00; x30; x00]
                   true false))
           wired 0%nat); reflexivity.
Defined.

(** ** Runs of [ist8310Detect] *)

Lemma chip_id_test (sig : byte) :
  (Int.u8 sig =? IST8310_CHIP_ID) = true <-> sig = x10.
Proof.
  rewrite Z.eqb_eq. split.
  - intros H. apply u8_inj. exact H.
  - intros ->. reflexivity.
Qed.

Lemma run_detect (tgt : target) (S : Type) (m : mock S) (mem : memory)
    (s : S) (mag : mag_t) (cfg : option ist8310Config_t) :
  let mem' := with_ist8310Config cfg mem in
  let r := respond m (whoami_read tgt) s in
  let ack := fst (fst r) in
  let sig := byte_at (snd (fst r)) 0 in
  let found := ack && (Int.u8 sig =? IST8310_CHIP_ID) in
  run m (ist8310Detect tgt mag cfg) mem s =
  mkOutcome [Entry mem' (whoami_read tgt) (fst r)] (snd r)
    (Some ((found,
            if found
            then mkMag (Some (ist8310Init tgt)) (Some (ist8310Read tgt))
            else mag), mem')).
Proof.
  unfold ist8310Detect, set_ist8310Config. cbn [bind platform run].
  change (I2cRead (MAG_I2C_INSTANCE tgt) IST8310_ADDRESS
            IST8310_REG_WHOAMI 1) with (whoami_read tgt).
  destruct (respond m (whoami_read tgt) s) as [[ack buf] s'].
  cbn [fst snd].
  destruct ack; cbn [negb orb andb];
    [ destruct (Int.u8 (byte_at buf 0) =? IST8310_CHIP_ID) | ];
    reflexivity.
Qed.

(** ** Claims about [ist8310Detect] *)

(** C3: [ist8310Detect] makes the single-byte who-am-i read and returns
    true exactly when that read is acknowledged and the byte is 0x10; then
    the [init] and [read] slots of the capability record hold
    [ist8310Init] and [ist8310Read]; with any other identity byte, and
    with a refused read whatever the byte, it returns false. *)
Theorem detect_true_iff_chip_id
    (tgt : target) (S : Type) (m : mock S) (mem : memory) (s : S)
    (mag : mag_t) (cfg : option ist8310Config_t) :
  let r := respond m (whoami_read tgt) s in
  let ack := fst (fst r) in
  let sig := byte_at (snd (fst r)) 0 in
  let o := run m (ist8310Detect tgt mag cfg) mem s in
  exists (found : bool) (mag' : mag_t) (mem' : memory),
    result o = Some ((found, mag'), mem') /\
    requests (trace o) = [Req (whoami_read tgt)] /\
    (found = true <-> ack = true /\ sig = x10) /\
    (found = true ->
     init mag' = Some (ist8310Init tgt) /\
     read mag' = Some (ist8310Read tgt)) /\
    (sig <> x10 -> found = false) /\
    (ack = false -> found = false).
Proof.
  intros r ack sig o. subst o. rewrite run_detect. cbv zeta.
  fold r. fold ack. fold sig. cbn [result trace requests map request_of].
  do 3 eexists. split; [ reflexivity | ]. split; [ reflexivity | ].
  pose proof (chip_id_test sig) as Hid.
  destruct ack; cbn [andb];
    [ destruct (Int.u8 sig =? IST8310_CHIP_ID) | ];
    cbn [init read]; intuition congruence.
Qed.

(** C4: when the who-am-i read is refused, or the identity byte is not
    0x10, [ist8310Detect] returns false and hands the capability record
    back with both slots as they were. *)
Theorem detect_failure_leaves_record
    (tgt : target) (S : Type) (m : mock S) (mem : memory) (s : S)
    (mag : mag_t) (cfg : option ist8310Config_t) :
  let r := respond m (whoami_read tgt) s in
  fst (fst r) = false \/ byte_at (snd (fst r)) 0 <> x10 ->
  exists mem' : memory,
    result (run m (ist8310Detect tgt mag cfg) mem s) =
    Some ((false, mag), mem').
Proof.
  intros r Hfail. rewrite run_detect. cbv zeta. fold r.
  cbn [result]. eexists.
  destruct Hfail as [-> | Hsig]; [ reflexivity | ].
  destruct (Int.u8 (byte_at (snd (fst r)) 0) =? IST8310_CHIP_ID) eqn:Hid.
  - apply chip_id_test in Hid. contradiction.
  - rewrite andb_false_r. reflexivity.
Qed.

(** The scenario of the specification: the chip answers 0x11. *)
Lemma detect_failure_leaves_record_witness :
  exists mem' : memory,
    result (run (sim (mkScript true x11 true [] true true))
              (ist8310Detect board (mkMag None None) (Some (mkConfig 0x2C)))
              at_reset 0%nat) =
    Some ((false, mkMag None None), mem').
Proof.
  apply (detect_failure_leaves_record board nat
           (sim (mkScript true x11 true [] true true)) at_reset
           0%nat (mkMag None None) (Some (mkConfig 0x2C))).
  right. discriminate.
Defined.

(** C9: [ist8310Detect] stores its configuration argument in the static
    pointer before the who-am-i read is made, whatever that read answers:
    the read is issued with the new pointer already in place, and memory
    on return holds it, also when the result is false. *)
Theorem detect_overwrites_config
    (tgt : target) (S : Type) (m : mock S) (mem : memory) (s : S)
    (mag : mag_t) (cfg : option ist8310Config_t) :
  let o := run m (ist8310Detect tgt mag cfg) mem s in
  map memory_of (trace o) = [with_ist8310Config cfg mem] /\
  exists (found : bool) (mag' : mag_t),
    result o = Some ((found, mag'), with_ist8310Config cfg mem) /\
    (found = false -> mag' = mag).
Proof.
  intros o. subst o. rewrite run_detect. cbv zeta.
  cbn [result trace map memory_of].
  split; [ reflexivity | ]. do 2 eexists. split; [ reflexivity | ].
  intros ->. reflexivity.
Qed.

(** A refused detection against a chip that is not there replaces the
    configuration of an earlier, successful one. *)
Example detect_overwrites_config_on_failure :
  result (run (sim (mkScript false x00 true [] true true))
            (ist8310Detect board (mkMag None None) (Some (mkConfig 0x31)))
            wired 0%nat) =
  Some ((false, mkMag None None),
        with_ist8310Config (Some (mkConfig 0x31)) wired).
Proof. reflexivity. Qed.

(** The scenario of the specification: the chip answers 0x10. *)
Example detect_success_scenario :
  result (run (sim healthy)
            (ist8310Detect board (mkMag None None) (Some (mkConfig 0x2C)))
            at_reset 0%nat) =
  Some ((true, mkMag (Some (ist8310Init board)) (Some (ist8310Read board))),
        wired).
Proof. reflexivity. Qed.

(** A refused who-am-i read fails the detection even when the buffer holds
    0x10. *)
Example detect_nack_with_chip_id :
  result (run (sim (mkScript false x10 true [] true true))
            (ist8310Detect board (mkMag None None) None)
            at_reset 0%nat) =
  Some ((false, mkMag None None), at_reset).
Proof. reflexivity. Qed.

(** With the line idle high, the handler is registered and enabled. *)
Example init_line_high_registers :
  requests (trace (run (sim healthy) (ist8310Init board) wired 0%nat)) =
  init_requests board true ++
  [Req (IOGetByTag 0x2C); Req (IORead 0x4002002C);
   Req (EXTIHandlerInit ist8310_extiCallbackRec ist8310_extiHandler);
   Req (EXTIConfig 0x4002002C ist8310_extiCallbackRec 15
          EXTI_Trigger_Rising);
   Req (EXTIEnable 0x4002002C true)].
Proof. reflexivity. Qed.

(** Entered before any detection, with the data-ready signal compiled in,
    [ist8310Init] dereferences the null configuration pointer. *)
Example init_before_detect_faults :
  result (run (sim healthy) (ist8310Init board) at_reset 0%nat) =
  None.
Proof. reflexivity. Qed.

(** Built without the data-ready signal, [ist8310Init] never looks at the
    configuration: it completes even before any detection, and only the
    local array has changed. *)
Example init_polled_build :
  let o := run (sim healthy) (ist8310Init board_polled) at_reset 0%nat in
  requests (trace o) = init_requests board_polled true /\
  result o =
  Some (tt, with_array ptr_magADC (mkSample (-48) 96 144) at_reset).
Proof. split; reflexivity. Qed.

(** Built without the idle-high check, the line level is not sampled and
    the handler is registered. *)
Example init_unchecked_build :
  requests (trace (run (sim (mkScript true x10 false [] true false))
                     (ist8310Init board_unchecked) wired 0%nat)) =
  init_requests board_unchecked false ++
  [Req (IOGetByTag 0x2C);
   Req (EXTIHandlerInit ist8310_extiCallbackRec ist8310_extiHandler);
   Req (EXTIConfig 0x4002002C ist8310_extiCallbackRec 15
          EXTI_Trigger_Rising);
   Req (EXTIEnable 0x4002002C true)].
Proof. reflexivity. Qed.

(** ** More runs of the interrupt configuration *)

Section ConfigureRuns.

Variable tgt : target.
Context {S : Type}.
Variable m : mock S.

(** The configuration faults exactly on a null configuration pointer in a
    build with the data-ready signal. *)
Lemma run_configure_faults (mem : memory) (s : S) :
  result (run m (ist8310ConfigureDataReadyInterruptHandling tgt) mem s) =
  None <->
  USE_MAG_DATA_READY_SIGNAL tgt = true /\ ist8310Config mem = None.
Proof.
  unfold ist8310ConfigureDataReadyInterruptHandling, ist8310Config_intTag,
    get_ist8310Config, set_intIO, get_intIO.
  destruct (USE_MAG_DATA_READY_SIGNAL tgt);
    [ | cbn; split; [ discriminate | intros [? _]; discriminate ] ].
  cbn [bind platform run].
  destruct (ist8310Config mem) as [cfg | ] eqn:Hcfg;
    [ | cbn; split; auto ].
  cbn [bind platform run].
  destruct (intTag cfg =? 0);
    [ cbn; split; [ discriminate | intros [_ ?]; discriminate ] | ].
  cbn [bind platform run]. rewrite Hcfg. cbn [bind platform run].
  answer s io s1.
  destruct (ENSURE_MAG_DATA_READY_IS_HIGH tgt);
    cbn [bind platform run intIO with_intIO].
  - answer s1 ipattern:([]) s2;
      cbn [Z.eqb bind platform run intIO with_intIO].
    + answer s2 ipattern:([]) s3.
      answer s3 ipattern:([]) s4.
      answer s4 ipattern:([]) s5.
      cbn; split; [ discriminate | intros [_ ?]; discriminate ].
    + cbn; split; [ discriminate | intros [_ ?]; discriminate ].
  - answer s1 ipattern:([]) s3.
    answer s3 ipattern:([]) s4.
    answer s4 ipattern:([]) s5.
    cbn; split; [ discriminate | intros [_ ?]; discriminate ].
Qed.

(** Of memory, the configuration writes [intIO] only. *)
Lemma run_configure_frame (mem mem' : memory) (s : S) :
  result (run m (ist8310ConfigureDataReadyInterruptHandling tgt) mem s) =
  Some (tt, mem') ->
  mem' = with_intIO (intIO mem') mem.
Proof.
  unfold ist8310ConfigureDataReadyInterruptHandling, ist8310Config_intTag,
    get_ist8310Config, set_intIO, get_intIO.
  assert (Hid : forall x, Some (tt, mem) = Some (tt, x) ->
                          x = with_intIO (intIO x) mem).
  { intros x Hx. injection Hx as <-. destruct mem; reflexivity. }
  assert (Hio : forall io x, Some (tt, with_intIO io mem) = Some (tt, x) ->
                             x = with_intIO (intIO x) mem).
  { intros io x Hx. injection Hx as <-. reflexivity. }
  destruct (USE_MAG_DATA_READY_SIGNAL tgt); [ | apply Hid ].
  cbn [bind platform run].
  destruct (ist8310Config mem) as [cfg | ] eqn:Hcfg; [ | discriminate ].
  cbn [bind platform run].
  destruct (intTag cfg =? 0); [ apply Hid | ].
  cbn [bind platform run]. rewrite Hcfg. cbn [bind platform run].
  answer s io s1.
  destruct (ENSURE_MAG_DATA_READY_IS_HIGH tgt);
    cbn [bind platform run intIO with_intIO].
  - answer s1 ipattern:([]) s2;
      cbn [Z.eqb bind platform run intIO with_intIO].
    + answer s2 ipattern:([]) s3.
      answer s3 ipattern:([]) s4.
      answer s4 ipattern:([]) s5.
      apply Hio.
    + apply Hio.
  - answer s1 ipattern:([]) s3.
    answer s3 ipattern:([]) s4.
    answer s4 ipattern:([]) s5.
    apply Hio.
Qed.


End ConfigureRuns.

(** ** More about [ist8310Init] *)

(** X1: [ist8310Init] runs into the null dereference exactly when it was
    built with the data-ready signal and the static configuration pointer
    is null (no detection yet, or a detection given a null pointer); in
    that case the bus sequence has been issued in full before the fault,
    and nothing was asked of the GPIO or EXTI layers. *)
Theorem init_faults_iff_null_config
    (tgt : target) (S : Type) (m : mock S) (mem : memory) (s : S) :
  let o := run m (ist8310Init tgt) mem s in
  (result o = None <->
   USE_MAG_DATA_READY_SIGNAL tgt = true /\ ist8310Config mem = None) /\
  (result o = None ->
   requests (trace o) = init_requests tgt (existsb is_acked_read (trace o))).
Proof.
  intros o. subst o.
  destruct (run_init_split tgt m mem s)
    as (pre & s' & mem1 & Ht & Hres & Hsame & Hpre & _).
  cbv zeta in Ht, Hres. destruct Hsame as (Hcfg & _ & _).
  rewrite Hres, run_configure_faults, Hcfg. split; [ reflexivity | ].
  intros [Huse Hnull]. rewrite <- Hcfg in Hnull.
  rewrite Ht.
  unfold ist8310ConfigureDataReadyInterruptHandling, ist8310Config_intTag,
    get_ist8310Config.
  rewrite Huse. cbn [bind platform run]. rewrite Hnull.
  cbn [bind platform run trace]. rewrite app_nil_r. exact Hpre.
Qed.

(** X2: whatever the platform answers, a run of [ist8310Init] that returns
    has left the configuration pointer and the caller's sample array as
    they were: the sample of its discard read goes to its local array
    only. *)
Theorem init_preserves_config_and_caller
    (tgt : target) (S : Type) (m : mock S) (mem mem' : memory) (s : S) :
  result (run m (ist8310Init tgt) mem s) = Some (tt, mem') ->
  ist8310Config mem' = ist8310Config mem /\
  caller_magData mem' = caller_magData mem.
Proof.
  destruct (run_init_split tgt m mem s)
    as (pre & s' & mem1 & _ & Hres & Hsame & _ & _).
  cbv zeta in Hres. rewrite Hres. intros Hc.
  apply run_configure_frame in Hc. rewrite Hc.
  destruct Hsame as (Hcfg & _ & Hcaller). split; assumption.
Qed.

Lemma init_preserves_config_and_caller_witness :
  let mem' :=
    with_intIO 0x4002002C
      (with_array ptr_magADC (mkSample (-48) 96 144) wired) in
  ist8310Config mem' = ist8310Config wired /\
  caller_magData mem' = caller_magData wired.
Proof.
  apply (init_preserves_config_and_caller board nat (sim healthy) wired
           (with_intIO 0x4002002C
              (with_array ptr_magADC (mkSample (-48) 96 144) wired))
           0%nat).
  reflexivity.
Defined.



(** X4: built without the data-ready signal, [ist8310Init] makes its bus
    operations and delays and nothing else, and returns, whatever the
    configuration pointer is (null included) and whatever the idle-high
    macro says. *)
Theorem init_polled_build_ignores_config
    (tgt : target) (S : Type) (m : mock S) (mem : memory) (s : S) :
  USE_MAG_DATA_READY_SIGNAL tgt = false ->
  let o := run m (ist8310Init tgt) mem s in
  requests (trace o) = init_requests tgt (existsb is_acked_read (trace o)) /\
  exists mem' : memory,
    result o = Some (tt, mem') /\ same_but_magADC mem mem'.
Proof.
  intros Huse o. subst o.
  destruct (run_init_split tgt m mem s)
    as (pre & s' & mem1 & Ht & Hres & Hsame & Hpre & _).
  cbv zeta in Ht, Hres. revert Ht Hres.
  unfold ist8310ConfigureDataReadyInterruptHandling. rewrite Huse.
  cbn [run trace result]. rewrite app_nil_r. intros -> ->.
  split; [ exact Hpre | ]. exists mem1. split; [ reflexivity | exact Hsame ].
Qed.

Lemma init_polled_build_ignores_config_witness :
  let o := run (sim healthy) (ist8310Init (mkTarget 2 15 false true))
             at_reset 0%nat in
  requests (trace o) =
  init_requests (mkTarget 2 15 false true)
    (existsb is_acked_read (trace o)) /\
  exists mem' : memory,
    result o = Some (tt, mem') /\ same_but_magADC at_reset mem'.
Proof.
  apply (init_polled_build_ignores_config (mkTarget 2 15 false true) nat
           (sim healthy) at_reset 0%nat).
  reflexivity.
Defined.

(** ** More about [ist8310Read] *)

Lemma unscale (r : Z) :
  Int.in_int16 r ->
  Int.to_int16 (Int.to_int16 (r * 3) * LSB2FSV_inverse) = r /\
  Int.to_int16 (- Int.to_int16 (- r * 3) * LSB2FSV_inverse) = r.
Proof.
  unfold Int.in_int16, Int.int16_min, Int.int16_max, LSB2FSV_inverse.
  intros Hr.
  pose proof (to_int16_wraps (r * 3)) as [_ Hy].
  pose proof (to_int16_wraps (- r * 3)) as [_ Hx].
  set (vy := Int.to_int16 (r * 3)) in *.
  set (vx := Int.to_int16 (- r * 3)) in *.
  split.
  - apply (wraps_to_unique (vy * 43691)); [ apply to_int16_wraps | ].
    split; [ exact Hr | ].
    Z.to_euclidean_division_equations; lia.
  - apply (wraps_to_unique (- vx * 43691)); [ apply to_int16_wraps | ].
    split; [ exact Hr | ].
    Z.to_euclidean_division_equations; lia.
Qed.

(** X5: whatever the platform answers, [ist8310Read] returns (it never
    dereferences the configuration), true exactly when the burst was
    acknowledged; it leaves both statics and the other array as they were,
    and all of memory on a refused burst; and after an acknowledged burst
    the array it was given no longer depends on what it held before. *)
Theorem read_touches_its_array_only
    (tgt : target) (S : Type) (m : mock S) (mem mem0 : memory) (s : S)
    (magData : int16_ptr) :
  let ack := fst (fst (respond m (data_read tgt) s)) in
  exists mem' mem0' : memory,
    result (run m (ist8310Read tgt magData) mem s) = Some (ack, mem') /\
    result (run m (ist8310Read tgt magData) mem0 s) = Some (ack, mem0') /\
    ist8310Config mem' = ist8310Config mem /\
    intIO mem' = intIO mem /\
    (forall q : int16_ptr,
        q <> magData -> array_at q mem' = array_at q mem) /\
    (ack = false -> mem' = mem) /\
    (ack = true -> array_at magData mem' = array_at magData mem0').
Proof.
  intros ack. subst ack.
  destruct (respond m (data_read tgt) s) as [[ack B] s'] eqn:Hr.
  cbn [fst]. destruct ack.
  - rewrite !(run_read_ack tgt m magData _ s s' B Hr). cbn [result].
    do 2 eexists. split; [ reflexivity | ]. split; [ reflexivity | ].
    repeat split; try discriminate.
    + destruct magData; reflexivity.
    + destruct magData; reflexivity.
    + intros q Hq. destruct q, magData; try reflexivity; contradiction.
    + destruct magData; reflexivity.
  - rewrite !(run_read_nack tgt m magData _ s s' B Hr). cbn [result].
    do 2 eexists. split; [ reflexivity | ]. split; [ reflexivity | ].
    repeat split; try discriminate.
Qed.

(** X6: the scaling loses nothing, wrapped or not: after an acknowledged
    burst each little-endian signed word of the burst is the stored value
    (negated for X) times 43691, reduced to 16 bits. *)
Theorem read_sample_determines_words
    (tgt : target) (S : Type) (m : mock S) (s s' : S) (mem : memory)
    (magData : int16_ptr) (B : buffer 6) :
  respond m (data_read tgt) s = ((true, B), s') ->
  exists d : sample,
    result (run m (ist8310Read tgt magData) mem s) =
    Some (true, with_array magData d mem) /\
    LE16 (byte_at B 0) (byte_at B 1) =
    Int.to_int16 (- sX d * LSB2FSV_inverse) /\
    LE16 (byte_at B 2) (byte_at B 3) =
    Int.to_int16 (sY d * LSB2FSV_inverse) /\
    LE16 (byte_at B 4) (byte_at B 5) =
    Int.to_int16 (sZ d * LSB2FSV_inverse).
Proof.
  intros Hr. rewrite (run_read_ack tgt m magData mem s s' B Hr).
  cbn [result]. exists (decoded B). split; [ reflexivity | ].
  unfold decoded, product_X, product_Y, product_Z. cbn [sX sY sZ].
  destruct (unscale _ (LE16_range (byte_at B 0) (byte_at B 1))) as [_ Hx].
  destruct (unscale _ (LE16_range (byte_at B 2) (byte_at B 3))) as [Hy _].
  destruct (unscale _ (LE16_range (byte_at B 4) (byte_at B 5))) as [Hz _].
  rewrite Hx, Hy, Hz. repeat split.
Qed.

(** The burst [FF 7F 00 80 39 30] (words 32767, -32768, 12345) is stored
    as -32765, -32768, -28501, and comes back. *)
Lemma read_sample_determines_words_witness :
  exists d : sample,
    result (run (sim (mkScript true x10 true
                        [xff; x7f; x00; x80; x39; x30] true true))
              (ist8310Read board ptr_caller) unwired 0%nat) =
    Some (true, with_array ptr_caller d unwired) /\
    32767 = Int.to_int16 (- sX d * LSB2FSV_inverse) /\
    -32768 = Int.to_int16 (sY d * LSB2FSV_inverse) /\
    12345 = Int.to_int16 (sZ d * LSB2FSV_inverse).
Proof.
  apply (read_sample_determines_words board nat
           (sim (mkScript true x10 true
                   [xff; x7f; x00; x80; x39; x30] true true))
           0%nat 1%nat unwired ptr_caller
           (buffer_of_list 6 [xff; x7f; x00; x80; x39; x30])).
  reflexivity.
Defined.

(** ** What the driver puts on the bus *)

Lemma allowed_tail (tgt : target) (tail : list request) :
  forallb is_io_or_exti tail = true -> Forall (allowed tgt) tail.
Proof.
  induction tail as [ | q tail IH]; [ constructor | ].
  cbn [forallb]. intros H. apply andb_prop in H as [Hq Ht].
  constructor; [ | now apply IH ].
  destruct q as [X e]. destruct e; try discriminate;
    (split; [ discriminate | discriminate ]).
Qed.

Lemma allowed_driver_ops (tgt : target) :
  allowed tgt (Req (whoami_read tgt)) /\ allowed tgt (Req (data_read tgt)) /\
  allowed tgt (Req (mode_write tgt)) /\
  allowed tgt (Req (averaging_write tgt)) /\
  allowed tgt (Req settle).
Proof.
  unfold allowed, driver_bus_op.
  repeat split; try discriminate; intros _; auto.
Qed.

Lemma allowed_init_requests (tgt : target) (b : bool) :
  Forall (allowed tgt) (init_requests tgt b).
Proof.
  destruct (allowed_driver_ops tgt) as (_ & Hr & Hm & Ha & Hs).
  unfold init_requests.
  destruct b; cbn [app];
    repeat (apply Forall_cons; [ assumption | ]); apply Forall_nil.
Qed.

(** X7: whatever the platform answers, every bus operation of
    [ist8310Detect], [ist8310Init] and [ist8310Read] is one of four: the
    one-byte who-am-i read, the six-byte data read, the write of the
    single-measurement value to the first control register, and the write
    of the 16x value to the averaging register, all to the chip's address
    on the target's bus.  The second control register is never written:
    the driver neither resets the chip nor sets up its data-ready pin. *)
Theorem bus_operations_are_the_four
    (tgt : target) (S : Type) (m : mock S) (mem : memory) (s : S)
    (mag : mag_t) (cfg : option ist8310Config_t) (magData : int16_ptr) :
  Forall (allowed tgt)
    (requests (trace (run m (ist8310Detect tgt mag cfg) mem s))) /\
  Forall (allowed tgt) (requests (trace (run m (ist8310Init tgt) mem s))) /\
  Forall (allowed tgt)
    (requests (trace (run m (ist8310Read tgt magData) mem s))).
Proof.
  destruct (allowed_driver_ops tgt) as (Hw & Hr & Hm & _ & _).
  split; [ | split ].
  - rewrite run_detect. cbv zeta. cbn [trace requests map request_of].
    repeat (apply Forall_cons; [ assumption | ]); apply Forall_nil.
  - destruct (run_init_split tgt m mem s)
      as (pre & s' & mem1 & Ht & _ & _ & Hpre & _).
    cbv zeta in Ht. rewrite Ht. unfold requests in *.
    rewrite map_app, Hpre. apply Forall_app. split.
    + apply allowed_init_requests.
    + apply allowed_tail. apply (run_configure_shape tgt m mem1 s').
  - destruct (respond m (data_read tgt) s) as [[[] B] s'] eqn:Hresp.
    + rewrite (run_read_ack tgt m magData mem s s' B Hresp).
      cbn [trace requests map request_of].
      repeat (apply Forall_cons; [ assumption | ]); apply Forall_nil.
    + rewrite (run_read_nack tgt m magData mem s s' B Hresp).
      cbn [trace requests map request_of].
      repeat (apply Forall_cons; [ assumption | ]); apply Forall_nil.
Qed.

(** ** [ist8310Detect] and [ist8310Init] in sequence *)

Lemma init_result_none (tgt : target) (S : Type) (m : mock S)
    (mem : memory) (s : S) :
  result (run m (ist8310Init tgt) mem s) = None <->
  USE_MAG_DATA_READY_SIGNAL tgt = true /\ ist8310Config mem = None.
Proof.
  destruct (run_init_split tgt m mem s)
    as (pre & s' & mem1 & _ & Hres & (Hcfg & _ & _) & _ & _).
  cbv zeta in Hres. rewrite Hres, run_configure_faults, Hcfg. reflexivity.
Qed.

(** X8: [ist8310Detect] always returns, and whether a following
    [ist8310Init] runs into the null dereference depends on the build and
    on the pointer [ist8310Detect] was given only, not on what the chip
    answered nor on what was stored before: a refused detection with a
    configuration makes [ist8310Init] safe, an accepted one given a null
    pointer does not.  An accepted detection leaves [ist8310Init] in the
    [init] slot. *)
Theorem init_after_detect
    (tgt : target) (S : Type) (m : mock S) (mem : memory) (s s1 : S)
    (mag : mag_t) (cfg : option ist8310Config_t) :
  exists (found : bool) (mag' : mag_t) (mem1 : memory),
    result (run m (ist8310Detect tgt mag cfg) mem s) =
    Some ((found, mag'), mem1) /\
    (found = true -> init mag' = Some (ist8310Init tgt)) /\
    (result (run m (ist8310Init tgt) mem1 s1) = None <->
     USE_MAG_DATA_READY_SIGNAL tgt = true /\ cfg = None).
Proof.
  rewrite run_detect. cbv zeta. cbn [result].
  do 3 eexists. split; [ reflexivity | ]. split.
  - intros ->. reflexivity.
  - rewrite init_result_none. reflexivity.
Qed.

(** ** The handler *)



(** ** The decoding as a map from bursts to samples *)

Lemma LE16_inj (lo hi lo' hi' : byte) :
  LE16 lo hi = LE16 lo' hi' -> lo = lo' /\ hi = hi'.
Proof.
  unfold LE16. cbv zeta.
  pose proof (u8_range lo) as Rlo. pose proof (u8_range hi) as Rhi.
  pose proof (u8_range lo') as Rlo'. pose proof (u8_range hi') as Rhi'.
  intros Heq.
  assert (Int.u8 lo = Int.u8 lo' /\ Int.u8 hi = Int.u8 hi') as [Hl Hh].
  { destruct (Z.ltb_spec (Int.u8 lo + 256 * Int.u8 hi) 32768);
      destruct (Z.ltb_spec (Int.u8 lo' + 256 * Int.u8 hi') 32768); lia. }
  split; apply u8_inj; assumption.
Qed.

Lemma decoded_inj (B B' : buffer 6) : decoded B = decoded B' -> B = B'.
Proof.
  intros H.
  assert (Hw : forall b : buffer 6,
             LE16 (byte_at b 0) (byte_at b 1) =
             Int.to_int16 (- sX (decoded b) * LSB2FSV_inverse) /\
             LE16 (byte_at b 2) (byte_at b 3) =
             Int.to_int16 (sY (decoded b) * LSB2FSV_inverse) /\
             LE16 (byte_at b 4) (byte_at b 5) =
             Int.to_int16 (sZ (decoded b) * LSB2FSV_inverse)).
  { intros b. unfold decoded, product_X, product_Y, product_Z.
    cbn [sX sY sZ].
    destruct (unscale _ (LE16_range (byte_at b 0) (byte_at b 1)))
      as [_ Hx].
    destruct (unscale _ (LE16_range (byte_at b 2) (byte_at b 3)))
      as [Hy _].
    destruct (unscale _ (LE16_range (byte_at b 4) (byte_at b 5)))
      as [Hz _].
    rewrite Hx, Hy, Hz. repeat split. }
  destruct (Hw B) as (Hx & Hy & Hz). destruct (Hw B') as (Hx' & Hy' & Hz').
  rewrite H in Hx, Hy, Hz.
  rewrite <- Hx' in Hx. rewrite <- Hy' in Hy. rewrite <- Hz' in Hz.
  apply LE16_inj in Hx as [H0 H1]. apply LE16_inj in Hy as [H2 H3].
  apply LE16_inj in Hz as [H4 H5].
  destruct B as (b0 & b1 & b2 & b3 & b4 & b5 & []).
  destruct B' as (c0 & c1 & c2 & c3 & c4 & c5 & []).
  cbn in H0, H1, H2, H3, H4, H5. congruence.
Qed.

(** X10: two acknowledged bursts that leave the same sample in the array
    are the same six bytes: no two bursts decode alike, wrapped products
    included. *)
Theorem read_same_sample_same_burst
    (tgt : target) (S1 S2 : Type) (m1 : mock S1) (m2 : mock S2)
    (s1 s1' : S1) (s2 s2' : S2) (mem1 mem2 mem1' mem2' : memory)
    (magData : int16_ptr) (B1 B2 : buffer 6) :
  respond m1 (data_read tgt) s1 = ((true, B1), s1') ->
  respond m2 (data_read tgt) s2 = ((true, B2), s2') ->
  result (run m1 (ist8310Read tgt magData) mem1 s1) = Some (true, mem1') ->
  result (run m2 (ist8310Read tgt magData) mem2 s2) = Some (true, mem2') ->
  array_at magData mem1' = array_at magData mem2' ->
  B1 = B2.
Proof.
  intros Hr1 Hr2.
  rewrite (run_read_ack tgt m1 magData mem1 s1 s1' B1 Hr1).
  rewrite (run_read_ack tgt m2 magData mem2 s2 s2' B2 Hr2).
  cbn [result]. intros H1 H2. injection H1 as <-. injection H2 as <-.
  intros Heq. apply decoded_inj.
  destruct magData; exact Heq.
Qed.

Lemma read_same_sample_same_burst_witness :
  buffer_of_list 6 [xff; x7f; x00; x80; x39; x30] =
  buffer_of_list 6 [xff; x7f; x00; x80; x39; x30; xaa].
Proof.
  apply (read_same_sample_same_burst board nat nat
           (sim (mkScript true x10 true
                   [xff; x7f; x00; x80; x39; x30] true true))
           (sim (mkScript false x00 true
                   [xff; x7f; x00; x80; x39; x30; xaa] false false))
           0%nat 1%nat 5%nat 6%nat unwired wired
           (with_array ptr_caller (mkSample (-32765) (-32768) (-28501))
              unwired)
           (with_array ptr_caller (mkSample (-32765) (-32768) (-28501))
              wired)
           ptr_caller); reflexivity.
Defined.

(** X11: the first axis is stored as the negation of what the same two
    bytes give on the second axis, reduced to 16 bits: the two values are
    opposite, except for the word -32768, which is stored as -32768 on
    both axes. *)
Theorem read_negates_first_axis
    (tgt : target) (S : Type) (m : mock S) (s s' : S) (mem : memory)
    (magData : int16_ptr) (B : buffer 6) :
  respond m (data_read tgt) s = ((true, B), s') ->
  byte_at B 0 = byte_at B 2 -> byte_at B 1 = byte_at B 3 ->
  exists d : sample,
    result (run m (ist8310Read tgt magData) mem s) =
    Some (true, with_array magData d mem) /\
    sX d = (if sY d =? -32768 then -32768 else - sY d) /\
    (sY d = -32768 <-> LE16 (byte_at B 2) (byte_at B 3) = -32768).
Proof.
  intros Hr H0 H1. rewrite (run_read_ack tgt m magData mem s s' B Hr).
  cbn [result]. exists (decoded B). split; [ reflexivity | ].
  unfold decoded, product_X, product_Y. cbn [sX sY]. rewrite H0, H1.
  pose proof (LE16_range (byte_at B 2) (byte_at B 3)) as Hrange.
  set (r := LE16 (byte_at B 2) (byte_at B 3)) in *.
  unfold Int.in_int16, Int.int16_min, Int.int16_max in Hrange.
  unfold Int.to_int16.
  destruct (Z.ltb_spec ((- r * 3) mod 65536) 32768);
    destruct (Z.ltb_spec ((r * 3) mod 65536) 32768);
    match goal with
    | |- context [?v =? -32768] => destruct (Z.eqb_spec v (-32768))
    end;
    (split; [ | split ]);
    Z.to_euclidean_division_equations; lia.
Qed.

Lemma read_negates_first_axis_witness :
  exists d : sample,
    result (run (sim (mkScript true x10 true
                        [x00; x80; x00; x80; x00; x00] true true))
              (ist8310Read board ptr_caller) unwired 0%nat) =
    Some (true, with_array ptr_caller d unwired) /\
    sX d = (if sY d =? -32768 then -32768 else - sY d) /\
    (sY d = -32768 <-> -32768 = -32768).
Proof.
  apply (read_negates_first_axis board nat
           (sim (mkScript true x10 true
                   [x00; x80; x00; x80; x00; x00] true true))
           0%nat 1%nat unwired ptr_caller
           (buffer_of_list 6 [x00; x80; x00; x80; x00; x00]));
    reflexivity.
Defined.
